(** * The monitoring operator of KubeSphere

    A shallow embedding of [pkg/models/observability/monitoring/monitoring.go]
    and the properties of its query facade and entity counters.

    The operator is a thin adapter: every method forwards to an injected
    client (the monitoring backend, the Kubernetes clientset, the KubeSphere
    informer listers) and packs the answer into a response struct.  The
    clients are Go interfaces, so they are modelled as records of operations
    on an abstract world; the operator's own code is written in a small
    monad that threads that world, records every external call in a trace,
    and can panic the way the Go runtime does.

    Assumptions of the model: a call on a client returns (it may change the
    world, and it may return an error, but it does not panic); the rewrite
    functions of the registry are functions of their two arguments; slices
    are lists, a nil slice being the empty list. *)

From stdpp Require Import gmap strings list sorting.
From Stdlib Require Import ZArith QArith Lia.

Local Open Scope string_scope.
Local Open Scope list_scope.
Local Open Scope Z_scope.

(** ** Go base types *)

(** A non-nil Go [error] is represented by the message its [Error()] method
    returns; a possibly nil [error] is an [option error]. *)
Definition error : Type := string.

(** [time.Time] as seconds and nanoseconds since the Unix epoch. *)
Record Time : Type := mkTime { Time_sec : Z; Time_nsec : Z }.

(** [t.Unix()] *)
Definition Time_Unix (t : Time) : Z := Time_sec t.

(** [time.Duration], in nanoseconds. *)
Definition Duration : Type := Z.

(** [len(s)] of a slice, as a Go [int]. *)
Definition len {A} (s : list A) : Z := Z.of_nat (length s).

(** ** float64

    A finite float64 is the rational it denotes.  The operator builds its
    float64 values only by the conversion [float64(n)] of an integer [n]; the
    other values occur only inside payloads the backend returns, which the
    operator never inspects. *)
Inductive float64 : Type :=
| Finite (q : Q)
| Infinite (negative : bool)
| NaN.

(** Rounding of an integer to the nearest integer with a 53-bit significand,
    ties to even: the integer that [float64(n)] denotes. *)
Definition round_significand53 (n : Z) : Z :=
  let a := Z.abs n in
  if a <? 2 ^ 53 then n
  else
    let e := Z.log2 a - 52 in
    let q := Z.shiftr a e in
    let r := Z.land a (Z.ones e) in
    let half := Z.shiftl 1 (e - 1) in
    let q' := if (half <? r) || ((r =? half) && Z.odd q) then q + 1 else q in
    Z.sgn n * Z.shiftl q' e.

(** The conversion [float64(n)] of a Go integer. *)
Definition float64_of_int (n : Z) : float64 :=
  Finite (inject_Z (round_significand53 n)).


(** ** Label selectors (k8s.io/apimachinery/pkg/labels)

    The selector library is not part of the repository.  It is modelled by
    its documented behaviour for the two operators that the monitoring
    operator constructs, [selection.Equals] and [selection.Exists]. *)
Module labels.

Inductive Operator : Type := Equals | Exists.

Record Requirement : Type := mkRequirement {
  key : string;
  operator : Operator;
  strValues : list string
}.

(** [labels.Set] *)
Abbreviation Set_ := (gmap string string).

(** [labels.Selector]: the conjunction of its requirements. *)
Definition Selector : Type := list Requirement.

(** [sort.Sort(ByKey(requirements))] *)
Definition sortByKey (rs : list Requirement) : list Requirement :=
  merge_sort (λ a b, bool_decide (String.leb (key a) (key b) = true)) rs.

(** [labels.Everything()] *)
Definition Everything : Selector := [].

(** [labels.SelectorFromSet(ls)]: one equality requirement per entry. *)
Definition SelectorFromSet (ls : Set_) : Selector :=
  sortByKey ((λ kv : string * string, mkRequirement kv.1 Equals [kv.2]) <$> map_to_list ls).

Section Validation.
(** The syntactic checks of label keys and values. *)
Variable validateLabelKey : string → option error.
Variable validateLabelValue : string → string → option error.

(** [labels.NewRequirement(key, op, vals)], returning the pair
    (pointer to Requirement, error); a nil pointer is [None]. *)
Definition NewRequirement (k : string) (op : Operator) (vals : list string)
  : option Requirement * option error :=
  match validateLabelKey k with
  | Some e => (None, Some e)
  | None =>
    match op, vals with
    | Exists, [] => (Some (mkRequirement k op vals), None)
    | Exists, _ :: _ =>
        (None, Some "values set must be empty for exists and does not exist")
    | Equals, [v] =>
        match validateLabelValue k v with
        | Some e => (None, Some e)
        | None => (Some (mkRequirement k op vals), None)
        end
    | Equals, _ =>
        (None, Some "exact-match compatibility requires one single value")
    end
  end.
End Validation.

(** [s.DeepCopySelector()] *)
Definition DeepCopySelector (s : Selector) : Selector := s.

(** [s.Add(r)] *)
Definition Add (s : Selector) (r : Requirement) : Selector :=
  sortByKey (s ++ [r]).

(** [r.Matches(ls)] *)
Definition Requirement_Matches (r : Requirement) (ls : Set_) : bool :=
  match operator r with
  | Equals =>
      match ls !! key r with
      | Some v => bool_decide (v ∈ strValues r)
      | None => false
      end
  | Exists => bool_decide (is_Some (ls !! key r))
  end.

(** [s.Matches(ls)] *)
Definition Matches (s : Selector) (ls : Set_) : bool :=
  forallb (λ r, Requirement_Matches r ls) s.

(** [r.String()] *)
Definition Requirement_String (r : Requirement) : string :=
  match operator r with
  | Equals => key r +:+ "=" +:+ String.concat "," (strValues r)
  | Exists => key r
  end.

(** [s.String()] *)
Definition String (s : Selector) : string :=
  String.concat "," (Requirement_String <$> s).

End labels.

(** ** The environment of the source file

    What the file refers to and does not declare: the world its clients act
    on, the clock, the types and constants of other files of the repository,
    the label validation of the selector library, and the global registry of
    namespace rewrite functions.  Everything below is parametric in it. *)
Class Environment : Type := {
  (** The state behind the clients: monitoring backend, API server,
      informer caches, clock. *)
  World : Type;
  (** [time.Now()] *)
  clock : World → Time * World;

  (** [monitoring.QueryOption], an interface the operator only passes on. *)
  QueryOption : Type;
  (** The payload types of [Metadata], [LabelValues] and [MetricLabelSet],
      with the zero value of the last. *)
  MetadataData : Type;
  LabelValuesData : Type;
  MetricLabelSetData : Type;
  MetricLabelSetData_zero : MetricLabelSetData;

  (** [monitoring.MetricTypeVector] *)
  MetricTypeVector : string;
  (** The metric names of the entity counters. *)
  KubeSphereClusterCount : string;
  KubeSphereWorkspaceCount : string;
  KubeSphereUserCount : string;
  WorkspaceNamespaceCount : string;
  WorkspaceDevopsCount : string;
  WorkspaceMemberCount : string;
  WorkspaceRoleCount : string;
  (** [constants.WorkspaceLabelKey] and [v1alpha2.UserReferenceLabel] *)
  WorkspaceLabelKey : string;
  UserReferenceLabel : string;

  (** The syntactic checks applied by [labels.NewRequirement]. *)
  validateLabelKey : string → option error;
  validateLabelValue : string → string → option error;

  (** [expressions.ReplaceNamespaceFns]: backend kind to rewrite function
      [(expr, ns) -> (expr, error)].  A kind that is not registered looks up
      to the nil function. *)
  ReplaceNamespaceFns : gmap string (string → string → string * option error)
}.

(** ** Types of the monitoring client package

    Declared in [pkg/simple/client/observability/monitoring]; modelled with
    the fields that the operator writes. *)
Module monitoring.

(** [Point{t, v}]: a timestamp and a value. *)
Definition Point : Type := float64 * float64.

Record MetricValue : Type := mkMetricValue {
  Sample : option Point             (* a pointer to Point; nil is None *)
}.

Record MetricData : Type := mkMetricData {
  MetricType : string;
  MetricValues : list MetricValue
}.

Record Metric : Type := mkMetric {
  MetricName : string;
  Data : MetricData;                (* the embedded MetricData *)
  Error : string
}.

(** The zero value of [MetricData]. *)
Definition MetricData_zero : MetricData := mkMetricData "" [].

Section Backend.
Context {env : Environment}.

(** [monitoring.Interface]: the backend client. *)
Record Interface : Type := mkInterface {
  GetMetric : string → Time → World → Metric * World;
  GetMetricOverTime : string → Time → Time → Duration → World → Metric * World;
  GetNamedMetrics : list string → Time → QueryOption → World → list Metric * World;
  GetNamedMetricsOverTime :
    list string → Time → Time → Duration → QueryOption → World → list Metric * World;
  GetMetadata : string → World → MetadataData * World;
  GetLabelValues : string → list string → Time → Time → World → LabelValuesData * World;
  GetMetricLabelSet : string → Time → Time → World → MetricLabelSetData * World
}.
End Backend.

End monitoring.

(** ** Cluster objects and the clients that list them *)

(** [metav1.ObjectMeta], with the fields that selection depends on. *)
Record ObjectMeta : Type := mkObjectMeta {
  Name : string;
  Labels : gmap string string
}.

(** Clusters, workspace templates, users, namespaces, DevOps projects and
    workspace roles are represented by their metadata: the operator uses the
    number of listed objects only. *)
Definition Cluster : Type := ObjectMeta.
Definition WorkspaceTemplate : Type := ObjectMeta.
Definition User : Type := ObjectMeta.
Definition Namespace : Type := ObjectMeta.
Definition DevOpsProject : Type := ObjectMeta.
Definition WorkspaceRole : Type := ObjectMeta.

(** [rbacv1.Subject] *)
Record Subject : Type := mkSubject {
  Subject_Kind : string;
  Subject_Name : string
}.

(** [v1alpha2.WorkspaceRoleBinding]: its subjects are the members it binds. *)
Record WorkspaceRoleBinding : Type := mkWorkspaceRoleBinding {
  WorkspaceRoleBinding_ObjectMeta : ObjectMeta;
  Subjects : list Subject
}.

(** [v1.NamespaceList] *)
Record NamespaceList : Type := mkNamespaceList {
  Items : list Namespace
}.

(** [metav1.ListOptions] *)
Record ListOptions : Type := mkListOptions {
  LabelSelector : string
}.

Section Clients.
Context {env : Environment}.

(** [kubernetes.Interface], with the one call chain the operator uses:
    [CoreV1().Namespaces().List(ctx, opt)].  The generated clientset
    allocates the list before the request, so the pointer it returns is
    never nil. *)
Record kubernetes_Interface : Type := mkKubernetes {
  Namespaces_List : ListOptions → World → (NamespaceList * option error) * World
}.

(** [ksinformers.SharedInformerFactory], with the listers the operator
    uses: [Cluster().V1alpha1().Clusters().Lister().List(selector)] and
    its siblings. *)
Record SharedInformerFactory : Type := mkSharedInformerFactory {
  Clusters_List :
    labels.Selector → World → (list Cluster * option error) * World;
  WorkspaceTemplates_List :
    labels.Selector → World → (list WorkspaceTemplate * option error) * World;
  Users_List :
    labels.Selector → World → (list User * option error) * World;
  DevOpsProjects_List :
    labels.Selector → World → (list DevOpsProject * option error) * World;
  WorkspaceRoleBindings_List :
    labels.Selector → World → (list WorkspaceRoleBinding * option error) * World;
  WorkspaceRoles_List :
    labels.Selector → World → (list WorkspaceRole * option error) * World
}.

(** [type monitoringOperator struct] *)
Record monitoringOperator : Type := mkMonitoringOperator {
  prometheus : monitoring.Interface;
  k8s : kubernetes_Interface;
  ks : SharedInformerFactory
}.

End Clients.

(** ** Response types of the operator package *)
Section Responses.
Context {env : Environment}.

Record Metrics : Type := mkMetrics {
  Results : list monitoring.Metric
}.

Record Metadata : Type := mkMetadata {
  Metadata_Data : MetadataData
}.

Record LabelValues : Type := mkLabelValues {
  LabelValues_Data : LabelValuesData
}.

Record MetricLabelSet : Type := mkMetricLabelSet {
  MetricLabelSet_Data : MetricLabelSetData
}.

(** [var res Metrics] and [MetricLabelSet{}]: the zero values. *)
Definition Metrics_zero : Metrics := mkMetrics [].
Definition MetricLabelSet_zero : MetricLabelSet :=
  mkMetricLabelSet MetricLabelSetData_zero.

End Responses.

(** ** Execution: world passing, a trace of external calls, panics *)
Section Execution.
Context {env : Environment}.

(** The requests the operator can send to the monitoring backend. *)
Inductive Query : Type :=
| QMetric (expr : string) (time : Time)
| QMetricOverTime (expr : string) (start end_ : Time) (step : Duration)
| QNamedMetrics (metrics : list string) (time : Time) (opt : QueryOption)
| QNamedMetricsOverTime
    (metrics : list string) (start end_ : Time) (step : Duration) (opt : QueryOption)
| QMetadata (namespace : string)
| QLabelValues (label : string) (matches : list string) (start end_ : Time)
| QMetricLabelSet (expr : string) (start end_ : Time).

(** The informer listers. *)
Inductive Resource : Type :=
| Clusters | WorkspaceTemplates | Users
| DevOpsProjects | WorkspaceRoleBindings | WorkspaceRoles.

(** What leaves the operator, in the order it happens. *)
Inductive Event : Type :=
| ClockRead                                         (* time.Now() *)
| Logged (err : error)                              (* klog.Error(err) *)
| Rewrite (kind expr namespace : string)            (* ReplaceNamespaceFns[kind](expr, namespace) *)
| Backend (q : Query)                               (* a call on mo.prometheus *)
| Lister (r : Resource) (selector : labels.Selector) (* a List call on a lister of mo.ks *)
| NamespacesList (opt : ListOptions).               (* mo.k8s.CoreV1().Namespaces().List *)

Record State : Type := mkState {
  world : World;
  trace : list Event
}.

Inductive Outcome (A : Type) : Type :=
| Returned (a : A)
| Panicked (reason : string).
Global Arguments Returned {A} a.
Global Arguments Panicked {A} reason.

Definition Exec (A : Type) : Type := State → Outcome A * State.

Definition ret {A} (a : A) : Exec A := λ st, (Returned a, st).

Definition bind {A B} (c : Exec A) (k : A → Exec B) : Exec B :=
  λ st,
    match c st with
    | (Returned a, st') => k a st'
    | (Panicked reason, st') => (Panicked reason, st')
    end.

(** A runtime panic: the call does not return to its caller. *)
Definition panic {A} (reason : string) : Exec A := λ st, (Panicked reason, st).

(** An event without effect on the world. *)
Definition emit (ev : Event) : Exec unit :=
  λ st, (Returned tt, mkState (world st) (trace st ++ [ev])).

(** A call of an operation of a client: it is recorded, then acts on the
    world. *)
Definition external {A} (ev : Event) (op : World → A * World) : Exec A :=
  λ st,
    let '(a, w) := op (world st) in
    (Returned a, mkState w (trace st ++ [ev])).

(** Dereferencing a pointer, or calling a function value, that may be
    nil. *)
Definition nonnil {A} (p : option A) : Exec A :=
  match p with
  | Some a => ret a
  | None => panic "runtime error: invalid memory address or nil pointer dereference"
  end.

End Execution.

Notation "x <- c ;; k" := (bind c (λ x, k))
  (at level 20, c at level 99, k at level 200, only parsing).
Notation "' pat <- c ;; k" := (bind c (λ x, match x with pat => k end))
  (at level 20, pat pattern, c at level 99, k at level 200, only parsing).
Notation "c ;; k" := (bind c (λ _, k))
  (at level 100, k at level 200, only parsing, right associativity).

(** ** The operator: monitoring.go *)
Section Operator.
Context {env : Environment}.
Variable mo : monitoringOperator.

(** *** Calls on the clients held by the operator *)

Definition time_Now : Exec Time := external ClockRead clock.

Definition klog_Error (err : error) : Exec unit := emit (Logged err).

(** [expressions.ReplaceNamespaceFns[kind](expr, namespace)]: the lookup
    of a missing kind yields the nil function, and calling it panics. *)
Definition ReplaceNamespaceFns_call (kind expr namespace : string)
  : Exec (string * option error) :=
  fn <- nonnil (ReplaceNamespaceFns !! kind) ;;
  emit (Rewrite kind expr namespace) ;;
  ret (fn expr namespace).

Definition backend {A} (q : Query)
    (op : monitoring.Interface → World → A * World) : Exec A :=
  external (Backend q) (op (prometheus mo)).

Definition lister {A} (r : Resource) (selector : labels.Selector)
    (op : SharedInformerFactory → labels.Selector → World → A * World) : Exec A :=
  external (Lister r selector) (op (ks mo) selector).

(** *** The query facade *)

Definition GetMetric (expr namespace : string) (time : Time)
  : Exec (monitoring.Metric * option error) :=
  m <- backend (QMetric expr time) (λ p, monitoring.GetMetric p expr time) ;;
  ret (m, None).

Definition GetMetricOverTime (expr namespace : string) (start end_ : Time) (step : Duration)
  : Exec (monitoring.Metric * option error) :=
  m <- backend (QMetricOverTime expr start end_ step)
         (λ p, monitoring.GetMetricOverTime p expr start end_ step) ;;
  ret (m, None).

Definition GetNamedMetrics (metrics : list string) (time : Time) (opt : QueryOption)
  : Exec Metrics :=
  ress <- backend (QNamedMetrics metrics time opt)
            (λ p, monitoring.GetNamedMetrics p metrics time opt) ;;
  ret {| Results := ress |}.

Definition GetNamedMetricsOverTime
    (metrics : list string) (start end_ : Time) (step : Duration) (opt : QueryOption)
  : Exec Metrics :=
  ress <- backend (QNamedMetricsOverTime metrics start end_ step opt)
            (λ p, monitoring.GetNamedMetricsOverTime p metrics start end_ step opt) ;;
  ret {| Results := ress |}.

Definition GetMetadata (namespace : string) : Exec Metadata :=
  data <- backend (QMetadata namespace) (λ p, monitoring.GetMetadata p namespace) ;;
  ret {| Metadata_Data := data |}.

Definition GetLabelValues (label : string) (matches : list string) (start end_ : Time)
  : Exec LabelValues :=
  data <- backend (QLabelValues label matches start end_)
            (λ p, monitoring.GetLabelValues p label matches start end_) ;;
  ret {| LabelValues_Data := data |}.

Definition GetMetricLabelSet (metric namespace : string) (start end_ : Time)
  : Exec MetricLabelSet :=
  let lookup (expr : string) : Exec MetricLabelSet :=
    data <- backend (QMetricLabelSet expr start end_)
              (λ p, monitoring.GetMetricLabelSet p expr start end_) ;;
    ret {| MetricLabelSet_Data := data |} in
  if negb (String.eqb namespace "") then
    '(expr, err) <- ReplaceNamespaceFns_call "prometheus" metric namespace ;;
    match err with
    | Some err =>
        klog_Error err ;;
        ret MetricLabelSet_zero
    | None => lookup expr
    end
  else lookup metric.

(** *** The entity counters *)

(** The two shapes of element the counters append: the list failed, or
    it gave [n] objects at time [now]. *)
Definition failed (name : string) (err : error) : monitoring.Metric :=
  {| monitoring.MetricName := name;
     monitoring.Data := monitoring.MetricData_zero;
     monitoring.Error := err |}.

Definition counted (name : string) (now : float64) (n : Z) : monitoring.Metric :=
  {| monitoring.MetricName := name;
     monitoring.Data :=
       {| monitoring.MetricType := MetricTypeVector;
          monitoring.MetricValues :=
            [ {| monitoring.Sample := Some (now, float64_of_int n) |} ] |};
     monitoring.Error := "" |}.

(** [res.Results = append(res.Results, m)] *)
Definition append (res : Metrics) (m : monitoring.Metric) : Metrics :=
  {| Results := Results res ++ [m] |}.

Definition GetKubeSphereStats : Exec Metrics :=
  let res := Metrics_zero in
  t <- time_Now ;;
  let now := float64_of_int (Time_Unix t) in

  '(clusterList, err) <- lister Clusters labels.Everything Clusters_List ;;
  let clusterTotal := len clusterList in
  let clusterTotal := if clusterTotal =? 0 then 1 else clusterTotal in
  let res :=
    match err with
    | Some err => append res (failed KubeSphereClusterCount err)
    | None => append res (counted KubeSphereClusterCount now clusterTotal)
    end in

  '(wkList, err) <- lister WorkspaceTemplates labels.Everything WorkspaceTemplates_List ;;
  let res :=
    match err with
    | Some err => append res (failed KubeSphereWorkspaceCount err)
    | None => append res (counted KubeSphereWorkspaceCount now (len wkList))
    end in

  '(usrList, err) <- lister Users labels.Everything Users_List ;;
  let res :=
    match err with
    | Some err => append res (failed KubeSphereUserCount err)
    | None => append res (counted KubeSphereUserCount now (len usrList))
    end in

  ret res.

Definition GetWorkspaceStats (workspace : string) : Exec Metrics :=
  let res := Metrics_zero in
  t <- time_Now ;;
  let now := float64_of_int (Time_Unix t) in

  let selector := labels.SelectorFromSet {[ WorkspaceLabelKey := workspace ]} in
  let opt := {| LabelSelector := labels.String selector |} in

  '(nsList, err) <- external (NamespacesList opt) (Namespaces_List (k8s mo) opt) ;;
  let res :=
    match err with
    | Some err => append res (failed WorkspaceNamespaceCount err)
    | None => append res (counted WorkspaceNamespaceCount now (len (Items nsList)))
    end in

  '(devopsList, err) <- lister DevOpsProjects selector DevOpsProjects_List ;;
  let res :=
    match err with
    | Some err => append res (failed WorkspaceDevopsCount err)
    | None => append res (counted WorkspaceDevopsCount now (len devopsList))
    end in

  let '(r, _) :=
    labels.NewRequirement validateLabelKey validateLabelValue
      UserReferenceLabel labels.Exists [] in
  r <- nonnil r ;;
  let memberSelector := labels.Add (labels.DeepCopySelector selector) r in
  '(memberList, err) <- lister WorkspaceRoleBindings memberSelector WorkspaceRoleBindings_List ;;
  let res :=
    match err with
    | Some err => append res (failed WorkspaceMemberCount err)
    | None => append res (counted WorkspaceMemberCount now (len memberList))
    end in

  '(roleList, err) <- lister WorkspaceRoles selector WorkspaceRoles_List ;;
  let res :=
    match err with
    | Some err => append res (failed WorkspaceRoleCount err)
    | None => append res (counted WorkspaceRoleCount now (len roleList))
    end in

  ret res.

End Operator.

(** ** Reading a response *)

(** The points of an element, and their two coordinates. *)
Definition samples (m : monitoring.Metric) : list monitoring.Point :=
  omap monitoring.Sample (monitoring.MetricValues (monitoring.Data m)).

Definition timestamps (m : monitoring.Metric) : list float64 := fst <$> samples m.

Definition values (m : monitoring.Metric) : list float64 := snd <$> samples m.

Section Elements.
Context {env : Environment}.

(** The element appended for one kind, from the outcome of its list
    operation: the error branch or the count branch of the [if]. *)
Definition element (name : string) (now : float64) (err : option error) (n : Z)
  : monitoring.Metric :=
  match err with
  | Some err => failed name err
  | None => counted name now n
  end.

(** The cluster total after [if clusterTotal == 0 { clusterTotal = 1 }]. *)
Definition clusterTotal (clusterList : list Cluster) : Z :=
  if len clusterList =? 0 then 1 else len clusterList.

End Elements.

(** ** The batched lookup of the backend *)
Section Batching.
Context {env : Environment}.

(** A single lookup by the query engine: the data of the metric, or the
    message of the error. *)
Definition Lookup : Type := string → World → (monitoring.MetricData + error) * World.

(** The result of one name: successful or failed, never both. *)
Definition named (name : string) (r : monitoring.MetricData + error) : monitoring.Metric :=
  match r with
  | inl data => monitoring.mkMetric name data ""
  | inr err => monitoring.mkMetric name monitoring.MetricData_zero err
  end.

(** Modelled from the spec: the batched named-metric lookup of the backend
    client, [GetNamedMetrics] and [GetNamedMetricsOverTime] of
    [monitoring.Interface], whose implementation is not among the source
    files.  The spec: it "batches named lookups; order preserved; errors
    isolated per name", and the response is an "ordered sequence of
    MetricResult, insertion order = request order; partial failure is
    expressed per-element, not by failing the whole response". *)
Fixpoint namedLookups (query : Lookup) (names : list string) (w : World)
  : list monitoring.Metric * World :=
  match names with
  | [] => ([], w)
  | name :: names' =>
      let '(r, w1) := query name w in
      let '(ms, w2) := namedLookups query names' w1 in
      (named name r :: ms, w2)
  end.

(** A backend whose two batched operations are [namedLookups] over an
    instant and a range lookup; its other operations are those of [p]. *)
Definition batching (p : monitoring.Interface)
    (instant : Time → QueryOption → Lookup)
    (range : Time → Time → Duration → QueryOption → Lookup)
  : monitoring.Interface :=
  {| monitoring.GetMetric := monitoring.GetMetric p;
     monitoring.GetMetricOverTime := monitoring.GetMetricOverTime p;
     monitoring.GetNamedMetrics :=
       λ metrics time opt, namedLookups (instant time opt) metrics;
     monitoring.GetNamedMetricsOverTime :=
       λ metrics start end_ step opt, namedLookups (range start end_ step opt) metrics;
     monitoring.GetMetadata := monitoring.GetMetadata p;
     monitoring.GetLabelValues := monitoring.GetLabelValues p;
     monitoring.GetMetricLabelSet := monitoring.GetMetricLabelSet p |}.

End Batching.

(** ** Members of role bindings, in the words of the specification *)


(** ** An in-memory environment

    A world that keeps the objects of a cluster in lists, with clients that
    select from them and a clock that advances at every call; used to run
    the operator on concrete inputs. *)
Module InMemory.

Record Store : Type := mkStore {
  seconds : Z;
  clusters : list Cluster;
  workspaceTemplates : list WorkspaceTemplate;
  users : list User;
  namespaces : list Namespace;
  devopsProjects : list DevOpsProject;
  roleBindings : list WorkspaceRoleBinding;
  roles : list WorkspaceRole;
  (** The resources whose list operation fails, with the error. *)
  failures : gmap string error
}.

Definition tick (s : Store) : Store :=
  mkStore (seconds s + 1) (clusters s) (workspaceTemplates s) (users s) (namespaces s)
    (devopsProjects s) (roleBindings s) (roles s) (failures s).

(** A lister over a cache: the objects whose labels the selector
    matches. *)
Definition listing {A} (resource : string) (objects : Store → list A)
    (meta : A → ObjectMeta) (selector : labels.Selector) (s : Store)
  : (list A * option error) * Store :=
  match failures s !! resource with
  | Some err => (([], Some err), tick s)
  | None =>
      ((List.filter (λ o, labels.Matches selector (Labels (meta o))) (objects s), None),
       tick s)
  end.

(** The API server, for selectors of the form [key=value]. *)
Definition matchesString (selector : string) (ls : gmap string string) : bool :=
  existsb (λ kv : string * string, String.eqb (kv.1 +:+ "=" +:+ kv.2) selector)
    (map_to_list ls).

Definition listNamespaces (opt : ListOptions) (s : Store)
  : (NamespaceList * option error) * Store :=
  match failures s !! "namespaces" with
  | Some err => ((mkNamespaceList [], Some err), tick s)
  | None =>
      ((mkNamespaceList
          (List.filter (λ o, matchesString (LabelSelector opt) (Labels o)) (namespaces s)),
        None),
       tick s)
  end.

Definition environment
    (fns : gmap string (string → string → string * option error)) : Environment :=
  {| World := Store;
     clock := λ s, (mkTime (seconds s) 0, s);
     QueryOption := unit;
     MetadataData := list string;
     LabelValuesData := list string;
     MetricLabelSetData := list string;
     MetricLabelSetData_zero := [];
     MetricTypeVector := "vector";
     KubeSphereClusterCount := "kubesphere_cluster_count";
     KubeSphereWorkspaceCount := "kubesphere_workspace_count";
     KubeSphereUserCount := "kubesphere_user_count";
     WorkspaceNamespaceCount := "workspace_namespace_count";
     WorkspaceDevopsCount := "workspace_devops_project_count";
     WorkspaceMemberCount := "workspace_member_count";
     WorkspaceRoleCount := "workspace_role_count";
     WorkspaceLabelKey := "kubesphere.io/workspace";
     UserReferenceLabel := "iam.kubesphere.io/user-ref";
     validateLabelKey :=
       λ k, if String.eqb k "" then Some "name part must be non-empty" else None;
     validateLabelValue := λ _ _, None;
     ReplaceNamespaceFns := fns |}.

Section Clients.
Variable fns : gmap string (string → string → string * option error).

(** The query engine: a metric whose name is empty is an error, any
    other has one sample at the time of the query. *)
Definition query (time : Time) (name : string) (s : Store)
  : (monitoring.MetricData + error) * Store :=
  if String.eqb name "" then (inr "empty metric name", tick s)
  else
    (inl (monitoring.mkMetricData "vector"
            [monitoring.mkMetricValue
               (Some (float64_of_int (Time_Unix time), Finite (1 # 2)))]),
     tick s).

Definition backend : @monitoring.Interface (environment fns) :=
  @monitoring.mkInterface (environment fns)
    (λ expr time s, let '(r, s') := query time expr s in (named expr r, s'))
    (λ expr start end_ step s, let '(r, s') := query end_ expr s in (named expr r, s'))
    (λ metrics time opt, namedLookups (env := environment fns) (query time) metrics)
    (λ metrics start end_ step opt,
       namedLookups (env := environment fns) (query end_) metrics)
    (λ namespace s, ([namespace], tick s))
    (λ label matches start end_ s, (matches, tick s))
    (λ expr start end_ s, ([expr], tick s)).

Definition informers : @SharedInformerFactory (environment fns) :=
  @mkSharedInformerFactory (environment fns)
    (listing "clusters" clusters id)
    (listing "workspacetemplates" workspaceTemplates id)
    (listing "users" users id)
    (listing "devopsprojects" devopsProjects id)
    (listing "workspacerolebindings" roleBindings WorkspaceRoleBinding_ObjectMeta)
    (listing "workspaceroles" roles id).

Definition operator : @monitoringOperator (environment fns) :=
  @mkMonitoringOperator (environment fns)
    backend (@mkKubernetes (environment fns) listNamespaces) informers.

Definition start (s : Store) : @State (environment fns) :=
  @mkState (environment fns) s [].

End Clients.

(** Two rewrite functions: one that refuses every expression, one that
    scopes it. *)
Definition refuse (expr ns : string) : string * option error :=
  ("", Some ("cannot rewrite " +:+ expr)).

Definition scope (expr ns : string) : string * option error :=
  (expr +:+ "{namespace=" +:+ ns +:+ "}", None).

(** Objects. *)
Definition object (name : string) (ls : list (string * string)) : ObjectMeta :=
  mkObjectMeta name (list_to_map ls).

Definition binding (name user workspace : string) : WorkspaceRoleBinding :=
  mkWorkspaceRoleBinding
    (object name [("kubesphere.io/workspace", workspace);
                  ("iam.kubesphere.io/user-ref", user)])
    [mkSubject "User" user].

(** No cluster object, three workspace templates, five users. *)
Definition host : Store :=
  {| seconds := 1700000000;
     clusters := [];
     workspaceTemplates := [object "ws1" []; object "ws2" []; object "ws3" []];
     users := [object "u1" []; object "u2" []; object "u3" []; object "u4" [];
               object "u5" []];
     namespaces :=
       [object "ns1" [("kubesphere.io/workspace", "ws1")];
        object "ns2" [("kubesphere.io/workspace", "ws2")];
        object "ns3" [("kubesphere.io/workspace", "ws1")]];
     devopsProjects := [object "dev1" [("kubesphere.io/workspace", "ws1")]];
     roleBindings :=
       [binding "alice-admin" "alice" "ws1";
        binding "alice-viewer" "alice" "ws1";
        binding "bob-viewer" "bob" "ws2";
        mkWorkspaceRoleBinding
          (object "group-viewer" [("kubesphere.io/workspace", "ws1")])
          [mkSubject "Group" "devs"]];
     roles :=
       [object "ws1-admin" [("kubesphere.io/workspace", "ws1")];
        object "ws1-viewer" [("kubesphere.io/workspace", "ws1")];
        object "ws2-viewer" [("kubesphere.io/workspace", "ws2")]];
     failures := ∅ |}.

(** The same cluster while the informer of workspace templates and the
    one of role bindings fail. *)
Definition degraded : Store :=
  {| seconds := seconds host;
     clusters := clusters host;
     workspaceTemplates := workspaceTemplates host;
     users := users host;
     namespaces := namespaces host;
     devopsProjects := devopsProjects host;
     roleBindings := roleBindings host;
     roles := roles host;
     failures := {[ "workspacetemplates" := "cache not synced";
                    "workspacerolebindings" := "cache not synced" ]} |}.

End InMemory.


(** ** The constructor *)
Section Constructor.
Context {env : Environment}.

(** [informers.InformerFactory], with the getter the constructor calls. *)
Record InformerFactory : Type := mkInformerFactory {
  KubeSphereSharedInformerFactory : SharedInformerFactory
}.

Definition NewMonitoringOperator
    (monitoringClient : monitoring.Interface) (k8s : kubernetes_Interface)
    (factory : InformerFactory) : monitoringOperator :=
  {| prometheus := monitoringClient;
     k8s := k8s;
     ks := KubeSphereSharedInformerFactory factory |}.

End Constructor.

(** ** An in-memory environment with a malformed label key

    The clients of [InMemory], in an environment whose user-reference label
    is the empty string, which the key validation refuses. *)
Module Malformed.

Definition environment : Environment :=
  {| World := InMemory.Store;
     clock := λ s, (mkTime (InMemory.seconds s) 0, s);
     QueryOption := unit;
     MetadataData := list string;
     LabelValuesData := list string;
     MetricLabelSetData := list string;
     MetricLabelSetData_zero := [];
     MetricTypeVector := "vector";
     KubeSphereClusterCount := "kubesphere_cluster_count";
     KubeSphereWorkspaceCount := "kubesphere_workspace_count";
     KubeSphereUserCount := "kubesphere_user_count";
     WorkspaceNamespaceCount := "workspace_namespace_count";
     WorkspaceDevopsCount := "workspace_devops_project_count";
     WorkspaceMemberCount := "workspace_member_count";
     WorkspaceRoleCount := "workspace_role_count";
     WorkspaceLabelKey := "kubesphere.io/workspace";
     UserReferenceLabel := "";
     validateLabelKey :=
       λ k, if String.eqb k "" then Some "name part must be non-empty" else None;
     validateLabelValue := λ _ _, None;
     ReplaceNamespaceFns := ∅ |}.

Definition operator : @monitoringOperator environment :=
  @NewMonitoringOperator environment
    (@monitoring.mkInterface environment
       (λ expr time s,
          let '(r, s') := InMemory.query time expr s in (named expr r, s'))
       (λ expr start end_ step s,
          let '(r, s') := InMemory.query end_ expr s in (named expr r, s'))
       (λ metrics time opt, namedLookups (env := environment) (InMemory.query time) metrics)
       (λ metrics start end_ step opt,
          namedLookups (env := environment) (InMemory.query end_) metrics)
       (λ namespace s, ([namespace], InMemory.tick s))
       (λ label matches start end_ s, (matches, InMemory.tick s))
       (λ expr start end_ s, ([expr], InMemory.tick s)))
    (@mkKubernetes environment InMemory.listNamespaces)
    (@mkInformerFactory environment
       (@mkSharedInformerFactory environment
          (InMemory.listing "clusters" InMemory.clusters id)
          (InMemory.listing "workspacetemplates" InMemory.workspaceTemplates id)
          (InMemory.listing "users" InMemory.users id)
          (InMemory.listing "devopsprojects" InMemory.devopsProjects id)
          (InMemory.listing "workspacerolebindings" InMemory.roleBindings
             WorkspaceRoleBinding_ObjectMeta)
          (InMemory.listing "workspaceroles" InMemory.roles id))).

Definition start (s : InMemory.Store) : @State environment :=
  @mkState environment s [].

End Malformed.

(** ** The shape of an element *)
Section Shape.
Context {env : Environment}.

(** An element is a one-sample vector without error text, or it carries
    no data at all. *)
Definition well_shaped (m : monitoring.Metric) : Prop :=
  (monitoring.Error m = ""
   ∧ monitoring.MetricType (monitoring.Data m) = MetricTypeVector
   ∧ length (samples m) = 1%nat)
  ∨ monitoring.Data m = monitoring.MetricData_zero.

End Shape.

(** ** A cluster without objects *)

(** The in-memory world before anything has been created. *)
Definition vacant : InMemory.Store :=
  {| InMemory.seconds := 1700000000;
     InMemory.clusters := [];
     InMemory.workspaceTemplates := [];
     InMemory.users := [];
     InMemory.namespaces := [];
     InMemory.devopsProjects := [];
     InMemory.roleBindings := [];
     InMemory.roles := [];
     InMemory.failures := ∅ |}.

(** * Properties *)

(** Unfolds a run of the operator into an expression on states: the monad
    and the calls on the clients. *)
Ltac run :=
  unfold backend, lister, time_Now, klog_Error, ReplaceNamespaceFns_call,
    external, emit, bind, ret, nonnil, panic;
  simpl.

(** ** Conversion to float64 *)

Lemma round_significand53_exact (n : Z) :
  Z.abs n < 2 ^ 53 → round_significand53 n = n.
Proof.
  intros Hn. unfold round_significand53.
  destruct (Z.ltb_spec (Z.abs n) (2 ^ 53)); [reflexivity | lia].
Qed.



(** ** Selectors *)

Lemma sortByKey_singleton (r : labels.Requirement) : labels.sortByKey [r] = [r].
Proof. reflexivity. Qed.








(** ** Runs of the entity counters *)
Section Runs.
Context {env : Environment}.
Variable mo : monitoringOperator.

(** [GetKubeSphereStats] reads the clock, asks the three listers in turn
    and returns one element per kind. *)
Lemma GetKubeSphereStats_run (st : State)
    t w0 clusterList err1 w1 wkList err2 w2 usrList err3 w3 :
  clock (world st) = (t, w0) →
  Clusters_List (ks mo) labels.Everything w0 = ((clusterList, err1), w1) →
  WorkspaceTemplates_List (ks mo) labels.Everything w1 = ((wkList, err2), w2) →
  Users_List (ks mo) labels.Everything w2 = ((usrList, err3), w3) →
  let now := float64_of_int (Time_Unix t) in
  GetKubeSphereStats mo st =
    (Returned
       {| Results :=
            [element KubeSphereClusterCount now err1 (clusterTotal clusterList);
             element KubeSphereWorkspaceCount now err2 (len wkList);
             element KubeSphereUserCount now err3 (len usrList)] |},
     mkState w3
       (trace st ++ [ClockRead;
                     Lister Clusters labels.Everything;
                     Lister WorkspaceTemplates labels.Everything;
                     Lister Users labels.Everything])).
Proof.
  intros Hc H1 H2 H3 now.
  unfold GetKubeSphereStats. run.
  rewrite Hc. simpl. rewrite H1. simpl. rewrite H2. simpl. rewrite H3. simpl.
  rewrite <- !app_assoc. simpl.
  destruct err1, err2, err3; reflexivity.
Qed.

(** [GetWorkspaceStats] reads the clock, asks the API server and the
    three listers in turn and returns one element per kind, provided the
    user-reference label is a well-formed key. *)
Lemma GetWorkspaceStats_run (workspace : string) (st : State)
    t w0 nsList err1 w1 devopsList err2 w2 memberList err3 w3 roleList err4 w4 :
  let selector := labels.SelectorFromSet {[ WorkspaceLabelKey := workspace ]} in
  let opt := {| LabelSelector := labels.String selector |} in
  let memberSelector :=
    labels.Add selector (labels.mkRequirement UserReferenceLabel labels.Exists []) in
  validateLabelKey UserReferenceLabel = None →
  clock (world st) = (t, w0) →
  Namespaces_List (k8s mo) opt w0 = ((nsList, err1), w1) →
  DevOpsProjects_List (ks mo) selector w1 = ((devopsList, err2), w2) →
  WorkspaceRoleBindings_List (ks mo) memberSelector w2 = ((memberList, err3), w3) →
  WorkspaceRoles_List (ks mo) selector w3 = ((roleList, err4), w4) →
  let now := float64_of_int (Time_Unix t) in
  GetWorkspaceStats mo workspace st =
    (Returned
       {| Results :=
            [element WorkspaceNamespaceCount now err1 (len (Items nsList));
             element WorkspaceDevopsCount now err2 (len devopsList);
             element WorkspaceMemberCount now err3 (len memberList);
             element WorkspaceRoleCount now err4 (len roleList)] |},
     mkState w4
       (trace st ++ [ClockRead;
                     NamespacesList opt;
                     Lister DevOpsProjects selector;
                     Lister WorkspaceRoleBindings memberSelector;
                     Lister WorkspaceRoles selector])).
Proof.
  intros selector opt memberSelector Hv Hc H1 H2 H3 H4 now.
  unfold GetWorkspaceStats, labels.NewRequirement, labels.DeepCopySelector.
  rewrite Hv. run.
  rewrite Hc. simpl. fold selector. fold opt. rewrite H1. simpl. rewrite H2. simpl.
  fold memberSelector. rewrite H3. simpl. rewrite H4. simpl.
  rewrite <- !app_assoc. simpl.
  destruct err1, err2, err3, err4; reflexivity.
Qed.

(** Without that proviso the dropped error of [labels.NewRequirement]
    comes with a nil requirement, and dereferencing it panics after the
    namespaces and the DevOps projects have been listed. *)
Lemma GetWorkspaceStats_malformed_key (workspace : string) (st : State) (err : error) :
  validateLabelKey UserReferenceLabel = Some err →
  ∃ st',
    GetWorkspaceStats mo workspace st =
      (Panicked "runtime error: invalid memory address or nil pointer dereference", st').
Proof.
  intros Hv.
  unfold GetWorkspaceStats, labels.NewRequirement. rewrite Hv. run.
  destruct (clock (world st)) as [t w0]. simpl.
  destruct (Namespaces_List _ _ _) as [[nsList e1] w1]. simpl.
  destruct (DevOpsProjects_List _ _ _) as [[devopsList e2] w2]. simpl.
  eauto.
Qed.

End Runs.

(** ** Elements *)
Section ElementFacts.
Context {env : Environment}.

Lemma clusterTotal_max (clusterList : list Cluster) :
  clusterTotal clusterList = Z.max 1 (len clusterList).
Proof.
  unfold clusterTotal, len.
  destruct (Z.eqb_spec (Z.of_nat (length clusterList)) 0); lia.
Qed.

Lemma clusterTotal_nil : clusterTotal [] = 1.
Proof. reflexivity. Qed.


Lemma timestamps_counted (name : string) (now : float64) (n : Z) :
  timestamps (counted name now n) = [now].
Proof. reflexivity. Qed.


End ElementFacts.

(** ** The label-set lookup *)
Section LabelSet.
Context {env : Environment}.
Variable mo : monitoringOperator.

(** C1. When the rewrite function registered for the backend kind
    returns an error on the metric expression and a non-empty scope,
    [GetMetricLabelSet] logs that error and returns the empty
    [MetricLabelSet]: the call returns (its result type has no error
    component), the world is untouched and the trace gains the rewrite
    and the log line only, so the backend lookup is not invoked. *)
Theorem rewrite_error_fails_open
    (metric namespace : string) (start end_ : Time) (st : State)
    (fn : string → string → string * option error) (expr : string) (err : error) :
  namespace ≠ "" →
  ReplaceNamespaceFns !! "prometheus" = Some fn →
  fn metric namespace = (expr, Some err) →
  GetMetricLabelSet mo metric namespace start end_ st =
    (Returned MetricLabelSet_zero,
     mkState (world st)
       (trace st ++ [Rewrite "prometheus" metric namespace; Logged err])).
Proof.
  intros Hns Hreg Hfn.
  unfold GetMetricLabelSet.
  destruct (String.eqb_spec namespace "") as [|_]; [contradiction|]. simpl.
  run. rewrite Hreg. simpl. rewrite Hfn. simpl.
  rewrite <- app_assoc. reflexivity.
Qed.

(** C2, as the code has it.  With a non-empty scope and no rewrite
    function registered for the backend kind, the registry lookup yields
    the nil function and calling it panics: the operation does not return
    a value, nothing is logged and the backend is not reached.  With a
    function registered the operation always returns a value. *)
Theorem unregistered_rewrite_panics
    (metric namespace : string) (start end_ : Time) (st : State) :
  namespace ≠ "" →
  (ReplaceNamespaceFns !! "prometheus" = None →
   GetMetricLabelSet mo metric namespace start end_ st =
     (Panicked "runtime error: invalid memory address or nil pointer dereference", st))
  ∧ (is_Some (ReplaceNamespaceFns !! "prometheus") →
     ∃ set st', GetMetricLabelSet mo metric namespace start end_ st = (Returned set, st')).
Proof.
  intros Hns. unfold GetMetricLabelSet.
  destruct (String.eqb_spec namespace "") as [|_]; [contradiction|]. simpl.
  run. split.
  - intros ->. reflexivity.
  - intros [fn ->]. simpl.
    destruct (fn metric namespace) as [expr [err|]]; simpl.
    + eauto.
    + destruct (monitoring.GetMetricLabelSet _ _ _ _ _). eauto.
Qed.

(** C7. With the empty scope [GetMetricLabelSet] goes straight to the
    backend: the lookup receives the metric expression unmodified, the
    call returns its payload wrapped, and the only event is that lookup:
    no rewrite function is called (the registry does not occur in the
    result, which holds for every registry, an empty one included) and
    nothing is logged. *)
Theorem empty_scope_bypasses_rewriter
    (metric : string) (start end_ : Time) (st : State) :
  GetMetricLabelSet mo metric "" start end_ st =
    (Returned
       {| MetricLabelSet_Data :=
            (monitoring.GetMetricLabelSet (prometheus mo) metric start end_ (world st)).1 |},
     mkState
       (monitoring.GetMetricLabelSet (prometheus mo) metric start end_ (world st)).2
       (trace st ++ [Backend (QMetricLabelSet metric start end_)])).
Proof.
  unfold GetMetricLabelSet. run.
  destruct (monitoring.GetMetricLabelSet _ _ _ _ _). reflexivity.
Qed.

End LabelSet.

(** ** Single queries *)
Section SingleQueries.
Context {env : Environment}.
Variable mo : monitoringOperator.

(** C6. The scope argument of [GetMetric] has no influence: two calls
    that differ in the scope only give the same outcome from the same
    state, and that outcome is the answer of the backend's instant query
    on [(expr, time)], passed on as it is.  The same holds for
    [GetMetricOverTime] and the range query. *)
Theorem scope_is_ignored_by_single_queries
    (expr s1 s2 : string) (time start end_ : Time) (step : Duration) (st : State) :
  GetMetric mo expr s1 time st = GetMetric mo expr s2 time st
  ∧ GetMetric mo expr s1 time st =
      (Returned ((monitoring.GetMetric (prometheus mo) expr time (world st)).1, None),
       mkState (monitoring.GetMetric (prometheus mo) expr time (world st)).2
         (trace st ++ [Backend (QMetric expr time)]))
  ∧ GetMetricOverTime mo expr s1 start end_ step st
    = GetMetricOverTime mo expr s2 start end_ step st
  ∧ GetMetricOverTime mo expr s1 start end_ step st =
      (Returned
         ((monitoring.GetMetricOverTime (prometheus mo) expr start end_ step (world st)).1,
          None),
       mkState
         (monitoring.GetMetricOverTime (prometheus mo) expr start end_ step (world st)).2
         (trace st ++ [Backend (QMetricOverTime expr start end_ step)])).
Proof.
  unfold GetMetric, GetMetricOverTime. run.
  destruct (monitoring.GetMetric _ _ _ _), (monitoring.GetMetricOverTime _ _ _ _ _ _).
  repeat split.
Qed.

(** C9. [GetMetric] and [GetMetricOverTime] always return, and the
    error component of what they return is nil: a failure of the query
    can only be inside the returned [Metric]. *)
Theorem single_queries_return_nil_error
    (expr namespace : string) (time start end_ : Time) (step : Duration) (st : State) :
  (∃ m st', GetMetric mo expr namespace time st = (Returned (m, None), st'))
  ∧ (∃ m st',
       GetMetricOverTime mo expr namespace start end_ step st = (Returned (m, None), st')).
Proof.
  unfold GetMetric, GetMetricOverTime. run.
  destruct (monitoring.GetMetric _ _ _ _), (monitoring.GetMetricOverTime _ _ _ _ _ _).
  split; eauto.
Qed.

End SingleQueries.

(** ** Batched queries *)
Section Batched.
Context {env : Environment}.

Lemma MetricName_named (name : string) (r : monitoring.MetricData + error) :
  monitoring.MetricName (named name r) = name.
Proof. destruct r; reflexivity. Qed.

Lemma namedLookups_length (query : Lookup) (names : list string) (w : World) :
  length (namedLookups query names w).1 = length names.
Proof.
  revert w. induction names as [|name names IH]; intros w; simpl; [reflexivity|].
  destruct (query name w) as [r w1]. specialize (IH w1).
  destruct (namedLookups query names w1). simpl in *. rewrite IH. reflexivity.
Qed.

Lemma namedLookups_names (query : Lookup) (names : list string) (w : World) :
  monitoring.MetricName <$> (namedLookups query names w).1 = names.
Proof.
  revert w. induction names as [|name names IH]; intros w; simpl; [reflexivity|].
  destruct (query name w) as [r w1]. specialize (IH w1).
  destruct (namedLookups query names w1). cbn [fst] in *.
  rewrite fmap_cons, MetricName_named, IH. reflexivity.
Qed.

(** The element at position [i] is the lookup of the name at position
    [i], made in the world that the lookups before it left. *)
Lemma namedLookups_lookup (query : Lookup) (names : list string) (w : World)
    (i : nat) (name : string) :
  names !! i = Some name →
  (namedLookups query names w).1 !! i
  = Some (named name (query name (namedLookups query (take i names) w).2).1).
Proof.
  revert w i. induction names as [|n names IH]; intros w i Hi; [discriminate|].
  destruct i as [|i]; simpl in *.
  - injection Hi as ->. destruct (query name w) as [r w1].
    destruct (namedLookups query names w1). reflexivity.
  - destruct (query n w) as [r w1]. specialize (IH w1 i Hi).
    destruct (namedLookups query names w1).
    destruct (namedLookups query (take i names) w1). simpl in *. exact IH.
Qed.

(** The operator passes the names on and wraps the slice it gets back. *)
Lemma GetNamedMetrics_run (mo : monitoringOperator)
    (metrics : list string) (time : Time) (opt : QueryOption) (st : State) :
  GetNamedMetrics mo metrics time opt st =
    (Returned
       {| Results := (monitoring.GetNamedMetrics (prometheus mo) metrics time opt (world st)).1 |},
     mkState (monitoring.GetNamedMetrics (prometheus mo) metrics time opt (world st)).2
       (trace st ++ [Backend (QNamedMetrics metrics time opt)])).
Proof.
  unfold GetNamedMetrics. run.
  destruct (monitoring.GetNamedMetrics _ _ _ _ _). reflexivity.
Qed.

Lemma GetNamedMetricsOverTime_run (mo : monitoringOperator)
    (metrics : list string) (start end_ : Time) (step : Duration) (opt : QueryOption)
    (st : State) :
  GetNamedMetricsOverTime mo metrics start end_ step opt st =
    (Returned
       {| Results :=
            (monitoring.GetNamedMetricsOverTime (prometheus mo) metrics start end_ step opt
               (world st)).1 |},
     mkState
       (monitoring.GetNamedMetricsOverTime (prometheus mo) metrics start end_ step opt
          (world st)).2
       (trace st ++ [Backend (QNamedMetricsOverTime metrics start end_ step opt)])).
Proof.
  unfold GetNamedMetricsOverTime. run.
  destruct (monitoring.GetNamedMetricsOverTime _ _ _ _ _ _ _). reflexivity.
Qed.

Variable p : monitoring.Interface.
Variable instant : Time → QueryOption → Lookup.
Variable range : Time → Time → Duration → QueryOption → Lookup.
Variable k8s_ : kubernetes_Interface.
Variable ks_ : SharedInformerFactory.

(** C5. Over a backend that batches as the specification describes,
    [GetNamedMetrics] and [GetNamedMetricsOverTime] return a response
    whose [Results] has one element per input name, in the order of the
    input; the element of a name is the result of the lookup of that name
    alone, so a failed lookup shows as the error of its own element and
    the response is returned all the same. *)
Theorem named_metrics_keep_length_and_order
    (names : list string) (time start end_ : Time) (step : Duration)
    (opt : QueryOption) (st : State) :
  let mo := mkMonitoringOperator (batching p instant range) k8s_ ks_ in
  (∃ res st',
     GetNamedMetrics mo names time opt st = (Returned res, st')
     ∧ length (Results res) = length names
     ∧ monitoring.MetricName <$> Results res = names
     ∧ ∀ i name, names !! i = Some name →
         Results res !! i
         = Some (named name
                   (instant time opt name
                      (namedLookups (instant time opt) (take i names) (world st)).2).1))
  ∧ (∃ res st',
       GetNamedMetricsOverTime mo names start end_ step opt st = (Returned res, st')
       ∧ length (Results res) = length names
       ∧ monitoring.MetricName <$> Results res = names
       ∧ ∀ i name, names !! i = Some name →
           Results res !! i
           = Some (named name
                     (range start end_ step opt name
                        (namedLookups (range start end_ step opt) (take i names)
                           (world st)).2).1)).
Proof.
  intros mo. split.
  - rewrite GetNamedMetrics_run. simpl.
    eexists _, _. split; [reflexivity|]. simpl.
    split; [apply namedLookups_length|].
    split; [apply namedLookups_names|].
    intros i name Hi. apply namedLookups_lookup, Hi.
  - rewrite GetNamedMetricsOverTime_run. simpl.
    eexists _, _. split; [reflexivity|]. simpl.
    split; [apply namedLookups_length|].
    split; [apply namedLookups_names|].
    intros i name Hi. apply namedLookups_lookup, Hi.
Qed.

End Batched.

(** ** The entity counters *)
Section Counters.
Context {env : Environment}.
Variable mo : monitoringOperator.





End Counters.

(** Case analysis on the membership of an event in an explicit trace. *)
Ltac in_events :=
  repeat match goal with
  | H : _ ∈ _ :: _ |- _ => apply elem_of_cons in H; destruct H as [H|H]
  | H : _ ∈ [] |- _ => apply elem_of_nil in H; destruct H
  end.

Ltac event_facts :=
  unfold not; intros; in_events; simplify_eq; try (simpl; lia); repeat split; eauto.

(** ** Further properties of the query facade *)
Section Facade.
Context {env : Environment}.
Variable mo : monitoringOperator.

(** X1. With a non-empty scope and a registered rewrite function that
    accepts the metric, the backend lookup receives the rewritten
    expression, not the metric: one rewrite, then one lookup over the
    caller's time range, and nothing is logged. *)
Theorem rewritten_expression_reaches_backend
    (metric namespace : string) (start end_ : Time) (st : State)
    (fn : string → string → string * option error) (expr : string) :
  namespace ≠ "" →
  ReplaceNamespaceFns !! "prometheus" = Some fn →
  fn metric namespace = (expr, None) →
  GetMetricLabelSet mo metric namespace start end_ st =
    (Returned
       {| MetricLabelSet_Data :=
            (monitoring.GetMetricLabelSet (prometheus mo) expr start end_ (world st)).1 |},
     mkState
       (monitoring.GetMetricLabelSet (prometheus mo) expr start end_ (world st)).2
       (trace st ++ [Rewrite "prometheus" metric namespace;
                     Backend (QMetricLabelSet expr start end_)])).
Proof.
  intros Hns Hreg Hfn.
  unfold GetMetricLabelSet.
  destruct (String.eqb_spec namespace "") as [|_]; [contradiction|]. simpl.
  run. rewrite Hreg. simpl. rewrite Hfn. simpl.
  destruct (monitoring.GetMetricLabelSet _ _ _ _ _). simpl.
  rewrite <- app_assoc. reflexivity.
Qed.

(** X2. Whatever the scope, the registry and the answer of the rewrite
    function, [GetMetricLabelSet] adds at most two events to the trace;
    a backend call among them is a label-set lookup over the caller's
    [start] and [end]; a rewrite among them is the one of kind
    "prometheus" on the caller's metric and non-empty scope; a log line
    excludes a backend call; and the clock, the listers and the API
    server are never used. *)
Theorem label_set_lookup_call_discipline
    (metric namespace : string) (start end_ : Time) (st : State) :
  ∃ events : list Event,
    trace (GetMetricLabelSet mo metric namespace start end_ st).2 = trace st ++ events
    ∧ (length events ≤ 2)%nat
    ∧ (∀ q, Backend q ∈ events → ∃ expr, q = QMetricLabelSet expr start end_)
    ∧ (∀ kind e n, Rewrite kind e n ∈ events →
         kind = "prometheus" ∧ e = metric ∧ n = namespace ∧ namespace ≠ "")
    ∧ (∀ err q, Logged err ∈ events → Backend q ∉ events)
    ∧ (ClockRead ∉ events)
    ∧ (∀ r s, Lister r s ∉ events)
    ∧ (∀ opt, NamespacesList opt ∉ events).
Proof.
  unfold GetMetricLabelSet.
  destruct (String.eqb_spec namespace "") as [->|Hns]; simpl.
  - run. destruct (monitoring.GetMetricLabelSet _ _ _ _ _). simpl.
    eexists. split; [reflexivity|]. repeat split; event_facts.
  - run. destruct (ReplaceNamespaceFns !! "prometheus") as [fn|]; simpl.
    + destruct (fn metric namespace) as [expr [err|]]; simpl.
      * exists [Rewrite "prometheus" metric namespace; Logged err].
        rewrite <- app_assoc. split; [reflexivity|]. repeat split; event_facts.
      * destruct (monitoring.GetMetricLabelSet _ _ _ _ _). simpl.
        exists [Rewrite "prometheus" metric namespace;
                Backend (QMetricLabelSet expr start end_)].
        rewrite <- app_assoc. split; [reflexivity|]. repeat split; event_facts.
    + exists []. rewrite app_nil_r. split; [reflexivity|]. repeat split; event_facts.
Qed.

(** X3. [GetNamedMetrics], [GetNamedMetricsOverTime], [GetMetadata] and
    [GetLabelValues] are pure pass-throughs: each returns for every input,
    makes exactly one backend call with its arguments unchanged and wraps
    the answer as it is.  The operator neither adds, drops nor reorders
    named results, and it does not rewrite the namespace of [GetMetadata]:
    the registry plays no part. *)
Theorem remaining_facade_methods_pass_through
    (metrics matches : list string) (label namespace : string)
    (time start end_ : Time) (step : Duration) (opt : QueryOption) (st : State) :
  GetNamedMetrics mo metrics time opt st =
    (Returned
       {| Results := (monitoring.GetNamedMetrics (prometheus mo) metrics time opt (world st)).1 |},
     mkState (monitoring.GetNamedMetrics (prometheus mo) metrics time opt (world st)).2
       (trace st ++ [Backend (QNamedMetrics metrics time opt)]))
  ∧ GetNamedMetricsOverTime mo metrics start end_ step opt st =
      (Returned
         {| Results :=
              (monitoring.GetNamedMetricsOverTime (prometheus mo) metrics start end_ step opt
                 (world st)).1 |},
       mkState
         (monitoring.GetNamedMetricsOverTime (prometheus mo) metrics start end_ step opt
            (world st)).2
         (trace st ++ [Backend (QNamedMetricsOverTime metrics start end_ step opt)]))
  ∧ GetMetadata mo namespace st =
      (Returned
         {| Metadata_Data := (monitoring.GetMetadata (prometheus mo) namespace (world st)).1 |},
       mkState (monitoring.GetMetadata (prometheus mo) namespace (world st)).2
         (trace st ++ [Backend (QMetadata namespace)]))
  ∧ GetLabelValues mo label matches start end_ st =
      (Returned
         {| LabelValues_Data :=
              (monitoring.GetLabelValues (prometheus mo) label matches start end_
                 (world st)).1 |},
       mkState
         (monitoring.GetLabelValues (prometheus mo) label matches start end_ (world st)).2
         (trace st ++ [Backend (QLabelValues label matches start end_)])).
Proof.
  split; [apply GetNamedMetrics_run|].
  split; [apply GetNamedMetricsOverTime_run|].
  unfold GetMetadata, GetLabelValues. run.
  destruct (monitoring.GetMetadata _ _ _), (monitoring.GetLabelValues _ _ _ _ _ _).
  split; reflexivity.
Qed.

End Facade.

(** ** The clients an operation depends on *)
Section Dependencies.
Context {env : Environment}.

(** X4. An operator built by [NewMonitoringOperator] uses each client
    where it is needed and nowhere else: the seven query methods depend on
    the monitoring client only, [GetKubeSphereStats] on the informer
    factory only, and [GetWorkspaceStats] on the clientset and the informer
    factory but not on the monitoring client. *)
Theorem operations_depend_on_their_clients_only
    (c c' : monitoring.Interface) (k k' : kubernetes_Interface) (f f' : InformerFactory)
    (expr namespace label workspace : string) (metrics matches : list string)
    (time start end_ : Time) (step : Duration) (opt : QueryOption) (st : State) :
  let mo := NewMonitoringOperator c k f in
  GetMetric mo expr namespace time st
  = GetMetric (NewMonitoringOperator c k' f') expr namespace time st
  ∧ GetMetricOverTime mo expr namespace start end_ step st
    = GetMetricOverTime (NewMonitoringOperator c k' f') expr namespace start end_ step st
  ∧ GetNamedMetrics mo metrics time opt st
    = GetNamedMetrics (NewMonitoringOperator c k' f') metrics time opt st
  ∧ GetNamedMetricsOverTime mo metrics start end_ step opt st
    = GetNamedMetricsOverTime (NewMonitoringOperator c k' f') metrics start end_ step opt st
  ∧ GetMetadata mo namespace st
    = GetMetadata (NewMonitoringOperator c k' f') namespace st
  ∧ GetLabelValues mo label matches start end_ st
    = GetLabelValues (NewMonitoringOperator c k' f') label matches start end_ st
  ∧ GetMetricLabelSet mo expr namespace start end_ st
    = GetMetricLabelSet (NewMonitoringOperator c k' f') expr namespace start end_ st
  ∧ GetKubeSphereStats mo st = GetKubeSphereStats (NewMonitoringOperator c' k' f) st
  ∧ GetWorkspaceStats mo workspace st
    = GetWorkspaceStats (NewMonitoringOperator c' k f) workspace st.
Proof. intros mo. repeat split. Qed.

End Dependencies.

(** ** Further properties of the entity counters *)
Section CounterFacts.
Context {env : Environment}.
Variable mo : monitoringOperator.

Lemma element_well_shaped (name : string) (now : float64) (err : option error) (n : Z) :
  well_shaped (element name now err n).
Proof. destruct err; [right | left]; repeat split. Qed.

Lemma float64_of_int_exact (n : Z) :
  Z.abs n < 2 ^ 53 → float64_of_int n = Finite (inject_Z n).
Proof. intros Hn. unfold float64_of_int. rewrite round_significand53_exact; auto. Qed.


(** X6. The numbers of [GetKubeSphereStats] are exact: when the Unix
    time and the lengths of the lists are below 2^53 in absolute value,
    the timestamp of every sample is the Unix time in seconds and the
    values are the cluster total and the two lengths, without rounding. *)
Theorem kubesphere_stats_are_exact (st : State)
    t w0 clusterList w1 wkList w2 usrList w3 :
  clock (world st) = (t, w0) →
  Clusters_List (ks mo) labels.Everything w0 = ((clusterList, None), w1) →
  WorkspaceTemplates_List (ks mo) labels.Everything w1 = ((wkList, None), w2) →
  Users_List (ks mo) labels.Everything w2 = ((usrList, None), w3) →
  Z.abs (Time_Unix t) < 2 ^ 53 →
  len clusterList < 2 ^ 53 →
  len wkList < 2 ^ 53 →
  len usrList < 2 ^ 53 →
  ∃ res st',
    GetKubeSphereStats mo st = (Returned res, st')
    ∧ samples <$> Results res
      = [[(Finite (inject_Z (Time_Unix t)), Finite (inject_Z (Z.max 1 (len clusterList))))];
         [(Finite (inject_Z (Time_Unix t)), Finite (inject_Z (len wkList)))];
         [(Finite (inject_Z (Time_Unix t)), Finite (inject_Z (len usrList)))]].
Proof.
  intros Hc H1 H2 H3 Ht Hcl Hwk Husr.
  eexists _, _. split.
  { exact (GetKubeSphereStats_run mo st _ _ _ _ _ _ _ _ _ _ _ Hc H1 H2 H3). }
  simpl. unfold samples. simpl. rewrite clusterTotal_max.
  rewrite !float64_of_int_exact by (unfold len in *; lia). reflexivity.
Qed.

(** X7. The entity counters only list.  [GetKubeSphereStats] reads the
    clock and calls the three listers once each, in the order clusters,
    workspace templates, users, with the selector that matches every
    object; [GetWorkspaceStats] reads the clock and lists namespaces,
    DevOps projects, role bindings and roles once each, in this order.
    This holds whatever the list operations answer: a failure neither
    stops the later lists nor is retried or logged, and the monitoring
    backend is not called. *)
Theorem entity_counters_only_list (workspace : string) (st : State) :
  let selector := labels.SelectorFromSet {[ WorkspaceLabelKey := workspace ]} in
  let opt := {| LabelSelector := labels.String selector |} in
  let memberSelector :=
    labels.Add selector (labels.mkRequirement UserReferenceLabel labels.Exists []) in
  (∃ res st',
     GetKubeSphereStats mo st = (Returned res, st')
     ∧ trace st' = trace st ++ [ClockRead;
                                Lister Clusters labels.Everything;
                                Lister WorkspaceTemplates labels.Everything;
                                Lister Users labels.Everything])
  ∧ (∀ ls : gmap string string, labels.Matches labels.Everything ls = true)
  ∧ (validateLabelKey UserReferenceLabel = None →
     ∃ res st',
       GetWorkspaceStats mo workspace st = (Returned res, st')
       ∧ trace st' = trace st ++ [ClockRead;
                                  NamespacesList opt;
                                  Lister DevOpsProjects selector;
                                  Lister WorkspaceRoleBindings memberSelector;
                                  Lister WorkspaceRoles selector]).
Proof.
  intros selector opt memberSelector.
  destruct (clock (world st)) as [t w0] eqn:Hc.
  split; [|split].
  - destruct (Clusters_List (ks mo) labels.Everything w0) as [[cl e1] w1] eqn:H1.
    destruct (WorkspaceTemplates_List (ks mo) labels.Everything w1) as [[wl e2] w2] eqn:H2.
    destruct (Users_List (ks mo) labels.Everything w2) as [[ul e3] w3] eqn:H3.
    eexists _, _. split.
    + exact (GetKubeSphereStats_run mo st _ _ _ _ _ _ _ _ _ _ _ Hc H1 H2 H3).
    + reflexivity.
  - reflexivity.
  - intros Hv.
    destruct (Namespaces_List (k8s mo) opt w0) as [[nl e1] w1] eqn:H1.
    destruct (DevOpsProjects_List (ks mo) selector w1) as [[dl e2] w2] eqn:H2.
    destruct (WorkspaceRoleBindings_List (ks mo) memberSelector w2) as [[ml e3] w3] eqn:H3.
    destruct (WorkspaceRoles_List (ks mo) selector w3) as [[rl e4] w4] eqn:H4.
    eexists _, _. split.
    + exact (GetWorkspaceStats_run mo workspace st _ _ _ _ _ _ _ _ _ _ _ _ _ _
               Hv Hc H1 H2 H3 H4).
    + reflexivity.
Qed.


(** X9. No element of a counter response carries both an error and a
    sample: every element of [GetKubeSphereStats] and of
    [GetWorkspaceStats] is either a vector with exactly one sample and an
    empty error text, or an element without any data. *)
Theorem count_elements_are_well_shaped (workspace : string) (st : State) :
  (∃ res st',
     GetKubeSphereStats mo st = (Returned res, st')
     ∧ Forall well_shaped (Results res))
  ∧ (validateLabelKey UserReferenceLabel = None →
     ∃ res st',
       GetWorkspaceStats mo workspace st = (Returned res, st')
       ∧ Forall well_shaped (Results res)).
Proof.
  destruct (clock (world st)) as [t w0] eqn:Hc. split.
  - destruct (Clusters_List (ks mo) labels.Everything w0) as [[cl e1] w1] eqn:H1.
    destruct (WorkspaceTemplates_List (ks mo) labels.Everything w1) as [[wl e2] w2] eqn:H2.
    destruct (Users_List (ks mo) labels.Everything w2) as [[ul e3] w3] eqn:H3.
    eexists _, _. split.
    { exact (GetKubeSphereStats_run mo st _ _ _ _ _ _ _ _ _ _ _ Hc H1 H2 H3). }
    simpl. repeat (apply List.Forall_cons; [apply element_well_shaped|]).
    apply List.Forall_nil.
  - intros Hv.
    set (selector := labels.SelectorFromSet {[ WorkspaceLabelKey := workspace ]}).
    destruct (Namespaces_List (k8s mo) {| LabelSelector := labels.String selector |} w0)
      as [[nl e1] w1] eqn:H1.
    destruct (DevOpsProjects_List (ks mo) selector w1) as [[dl e2] w2] eqn:H2.
    destruct (WorkspaceRoleBindings_List (ks mo)
                (labels.Add selector
                   (labels.mkRequirement UserReferenceLabel labels.Exists [])) w2)
      as [[ml e3] w3] eqn:H3.
    destruct (WorkspaceRoles_List (ks mo) selector w3) as [[rl e4] w4] eqn:H4.
    eexists _, _. split.
    { exact (GetWorkspaceStats_run mo workspace st _ _ _ _ _ _ _ _ _ _ _ _ _ _
               Hv Hc H1 H2 H3 H4). }
    simpl. repeat (apply List.Forall_cons; [apply element_well_shaped|]).
    apply List.Forall_nil.
Qed.

(** X10. Only the cluster count has a floor.  A successful list that
    returns no object is reported as 0 for workspace templates and users
    in [GetKubeSphereStats], and for namespaces, DevOps projects, members
    and roles in [GetWorkspaceStats]. *)
Theorem empty_lists_report_zero (workspace : string) (st : State)
    t w0 clusterList errC w1 w2 w3 v1 v2 v3 v4 :
  let selector := labels.SelectorFromSet {[ WorkspaceLabelKey := workspace ]} in
  let opt := {| LabelSelector := labels.String selector |} in
  let memberSelector :=
    labels.Add selector (labels.mkRequirement UserReferenceLabel labels.Exists []) in
  clock (world st) = (t, w0) →
  Clusters_List (ks mo) labels.Everything w0 = ((clusterList, errC), w1) →
  WorkspaceTemplates_List (ks mo) labels.Everything w1 = (([], None), w2) →
  Users_List (ks mo) labels.Everything w2 = (([], None), w3) →
  Namespaces_List (k8s mo) opt w0 = (({| Items := [] |}, None), v1) →
  DevOpsProjects_List (ks mo) selector v1 = (([], None), v2) →
  WorkspaceRoleBindings_List (ks mo) memberSelector v2 = (([], None), v3) →
  WorkspaceRoles_List (ks mo) selector v3 = (([], None), v4) →
  (∃ cluster workspaces users st',
     GetKubeSphereStats mo st
     = (Returned {| Results := [cluster; workspaces; users] |}, st')
     ∧ values workspaces = [Finite 0]
     ∧ values users = [Finite 0])
  ∧ (validateLabelKey UserReferenceLabel = None →
     ∃ res st',
       GetWorkspaceStats mo workspace st = (Returned res, st')
       ∧ values <$> Results res = [[Finite 0]; [Finite 0]; [Finite 0]; [Finite 0]]).
Proof.
  intros selector opt memberSelector Hc HC HW HU HN HD HM HR. split.
  - eexists _, _, _, _. split.
    + exact (GetKubeSphereStats_run mo st _ _ _ _ _ _ _ _ _ _ _ Hc HC HW HU).
    + split; reflexivity.
  - intros Hv. eexists _, _. split.
    + exact (GetWorkspaceStats_run mo workspace st _ _ _ _ _ _ _ _ _ _ _ _ _ _
               Hv Hc HN HD HM HR).
    + reflexivity.
Qed.

End CounterFacts.

(** ** The operator on the in-memory environment *)

Lemma rewrite_error_fails_open_witness :
  GetMetricLabelSet (InMemory.operator {[ "prometheus" := InMemory.refuse ]})
    "up" "team-a" (mkTime 0 0) (mkTime 60 0)
    (InMemory.start {[ "prometheus" := InMemory.refuse ]} InMemory.host)
  = (Returned MetricLabelSet_zero,
     mkState (env := InMemory.environment {[ "prometheus" := InMemory.refuse ]})
       InMemory.host [Rewrite "prometheus" "up" "team-a"; Logged "cannot rewrite up"]).
Proof.
  apply (rewrite_error_fails_open
           (env := InMemory.environment {[ "prometheus" := InMemory.refuse ]})
           (InMemory.operator {[ "prometheus" := InMemory.refuse ]})
           "up" "team-a" (mkTime 0 0) (mkTime 60 0)
           (InMemory.start {[ "prometheus" := InMemory.refuse ]} InMemory.host)
           InMemory.refuse "" "cannot rewrite up").
  - discriminate.
  - vm_compute. reflexivity.
  - reflexivity.
Defined.

Lemma unregistered_rewrite_panics_witness :
  GetMetricLabelSet (InMemory.operator ∅) "up" "team-a" (mkTime 0 0) (mkTime 60 0)
    (InMemory.start ∅ InMemory.host)
  = (Panicked "runtime error: invalid memory address or nil pointer dereference",
     InMemory.start ∅ InMemory.host).
Proof.
  assert (Hns : "team-a" ≠ "") by discriminate.
  destruct (unregistered_rewrite_panics
              (env := InMemory.environment ∅) (InMemory.operator ∅)
              "up" "team-a" (mkTime 0 0) (mkTime 60 0)
              (InMemory.start ∅ InMemory.host) Hns) as [Hpanic _].
  apply Hpanic. reflexivity.
Defined.

(** C2, refuted as stated: with no rewrite function registered for
    "prometheus", the lookup for "up" in scope "team-a" panics and returns
    no [MetricLabelSet] at all. *)
Lemma unregistered_rewrite_does_not_return :
  @ReplaceNamespaceFns (InMemory.environment ∅) !! "prometheus" = None
  ∧ "team-a" ≠ ""
  ∧ ¬ ∃ set st',
        GetMetricLabelSet (InMemory.operator ∅) "up" "team-a" (mkTime 0 0) (mkTime 60 0)
          (InMemory.start ∅ InMemory.host)
        = (Returned set, st').
Proof.
  split; [reflexivity|]. split; [discriminate|].
  intros (set & st' & Hrun). vm_compute in Hrun. discriminate Hrun.
Qed.



Lemma named_metrics_keep_length_and_order_witness :
  ∃ res st',
    GetNamedMetrics
      (mkMonitoringOperator (env := InMemory.environment ∅)
         (batching (InMemory.backend ∅)
            (λ time _, InMemory.query time) (λ _ end_ _ _, InMemory.query end_))
         (k8s (InMemory.operator ∅)) (ks (InMemory.operator ∅)))
      ["up"; ""; "node_load1"] (mkTime 1700000000 0) tt (InMemory.start ∅ InMemory.host)
    = (Returned res, st')
    ∧ length (Results res) = 3%nat
    ∧ monitoring.MetricName <$> Results res = ["up"; ""; "node_load1"]
    ∧ Results res !! 1%nat = Some (named "" (inr "empty metric name"))
    ∧ Results res !! 2%nat
      = Some (named "node_load1"
                (inl (monitoring.mkMetricData "vector"
                        [monitoring.mkMetricValue
                           (Some (float64_of_int 1700000000, Finite (1 # 2)))]))).
Proof.
  destruct (named_metrics_keep_length_and_order
              (env := InMemory.environment ∅) (InMemory.backend ∅)
              (λ time _, InMemory.query time) (λ _ end_ _ _, InMemory.query end_)
              (k8s (InMemory.operator ∅)) (ks (InMemory.operator ∅))
              ["up"; ""; "node_load1"] (mkTime 1700000000 0) (mkTime 0 0) (mkTime 60 0)
              15 tt (InMemory.start ∅ InMemory.host))
    as [(res & st' & Hrun & Hlen & Hnames & Hiso) _].
  exists res, st'. split; [exact Hrun|]. split; [exact Hlen|]. split; [exact Hnames|].
  split.
  - rewrite (Hiso 1%nat "" eq_refl). reflexivity.
  - rewrite (Hiso 2%nat "node_load1" eq_refl). reflexivity.
Defined.




Lemma rewritten_expression_reaches_backend_witness :
  GetMetricLabelSet (InMemory.operator {[ "prometheus" := InMemory.scope ]})
    "up" "team-a" (mkTime 0 0) (mkTime 60 0)
    (InMemory.start {[ "prometheus" := InMemory.scope ]} InMemory.host)
  = (Returned
       (mkMetricLabelSet (env := InMemory.environment {[ "prometheus" := InMemory.scope ]})
          ["up{namespace=team-a}"]),
     mkState (env := InMemory.environment {[ "prometheus" := InMemory.scope ]})
       (InMemory.tick InMemory.host)
       [Rewrite "prometheus" "up" "team-a";
        Backend (QMetricLabelSet "up{namespace=team-a}" (mkTime 0 0) (mkTime 60 0))]).
Proof.
  apply (rewritten_expression_reaches_backend
           (env := InMemory.environment {[ "prometheus" := InMemory.scope ]})
           (InMemory.operator {[ "prometheus" := InMemory.scope ]})
           "up" "team-a" (mkTime 0 0) (mkTime 60 0)
           (InMemory.start {[ "prometheus" := InMemory.scope ]} InMemory.host)
           InMemory.scope "up{namespace=team-a}").
  - discriminate.
  - vm_compute. reflexivity.
  - reflexivity.
Defined.


Lemma kubesphere_stats_are_exact_witness :
  ∃ res st',
    GetKubeSphereStats (InMemory.operator ∅) (InMemory.start ∅ InMemory.host)
    = (Returned res, st')
    ∧ samples <$> Results res
      = [[(Finite (inject_Z 1700000000), Finite (inject_Z 1))];
         [(Finite (inject_Z 1700000000), Finite (inject_Z 3))];
         [(Finite (inject_Z 1700000000), Finite (inject_Z 5))]].
Proof.
  edestruct (kubesphere_stats_are_exact
               (env := InMemory.environment ∅) (InMemory.operator ∅)
               (InMemory.start ∅ InMemory.host))
    as (res & st' & Hrun & Hsamples);
    [reflexivity | reflexivity | reflexivity | reflexivity
     | reflexivity | reflexivity | reflexivity | reflexivity |].
  exists res, st'. split; [exact Hrun | exact Hsamples].
Defined.

Lemma entity_counters_only_list_witness :
  ∃ res st',
    GetWorkspaceStats (InMemory.operator ∅) "ws1" (InMemory.start ∅ InMemory.degraded)
    = (Returned res, st')
    ∧ length (trace st') = 5%nat
    ∧ monitoring.Error <$> Results res = [""; ""; "cache not synced"; ""].
Proof.
  destruct (entity_counters_only_list
              (env := InMemory.environment ∅) (InMemory.operator ∅) "ws1"
              (InMemory.start ∅ InMemory.degraded))
    as (_ & _ & Hworkspace).
  destruct (Hworkspace eq_refl) as (res & st' & Hrun & Htrace).
  exists res, st'. split; [exact Hrun|]. split.
  - rewrite Htrace. reflexivity.
  - vm_compute in Hrun. injection Hrun as <- _. reflexivity.
Defined.


Lemma count_elements_are_well_shaped_witness :
  ∃ res st',
    GetWorkspaceStats (InMemory.operator ∅) "ws1" (InMemory.start ∅ InMemory.degraded)
    = (Returned res, st')
    ∧ Forall (well_shaped (env := InMemory.environment ∅)) (Results res).
Proof.
  destruct (count_elements_are_well_shaped
              (env := InMemory.environment ∅) (InMemory.operator ∅) "ws1"
              (InMemory.start ∅ InMemory.degraded))
    as (_ & Hworkspace).
  exact (Hworkspace eq_refl).
Defined.

Lemma empty_lists_report_zero_witness :
  (∃ cluster workspaces users st',
     GetKubeSphereStats (InMemory.operator ∅) (InMemory.start ∅ vacant)
     = (Returned {| Results := [cluster; workspaces; users] |}, st')
     ∧ values cluster = [Finite 1]
     ∧ values workspaces = [Finite 0]
     ∧ values users = [Finite 0])
  ∧ (∃ res st',
       GetWorkspaceStats (InMemory.operator ∅) "ws1" (InMemory.start ∅ vacant)
       = (Returned res, st')
       ∧ values <$> Results res = [[Finite 0]; [Finite 0]; [Finite 0]; [Finite 0]]).
Proof.
  edestruct (empty_lists_report_zero
               (env := InMemory.environment ∅) (InMemory.operator ∅) "ws1"
               (InMemory.start ∅ vacant))
    as [(c & w & u & st1 & Hrun & Hw & Hu) Hworkspace];
    [reflexivity | reflexivity | reflexivity | reflexivity
     | reflexivity | reflexivity | reflexivity | reflexivity |].
  split.
  - exists c, w, u, st1. split; [exact Hrun|]. split; [|split; assumption].
    vm_compute in Hrun. injection Hrun as <- _ _ _. reflexivity.
  - exact (Hworkspace eq_refl).
Defined.
